(** * The namespace deletion guard: a shallow embedding of listener.go

    The admission webhook of k8s-namespace-guard decides whether a
    namespace may be deleted.  This file embeds [webhookHandler] and
    [validateNamespaceDeletion] as functions in a small state monad
    whose state holds the two process-wide globals ([admitAll],
    [clientset]) and the sequence of API calls issued so far, and then
    proves the properties of the decision logic. *)

From Stdlib Require Import ZArith.
From stdpp Require Import base strings gmap list pretty.

(** ** Go values used by the handler *)

(** A non-nil Go [error].  [Error] is the text of [err.Error()];
    [NotFound] is what [apiErrors.IsNotFound] reports for it.  A nil
    error is [None] in [option error]. *)
Record error := mkError { Error : string; NotFound : bool }.

(** [errors.New] and [fmt.Errorf] build plain errors. *)
Definition errors_New (text : string) : error :=
  {| Error := text; NotFound := false |}.

(** The outcome of a fallible library call [(value, err)]. *)
Inductive Result (A : Type) :=
| Ok (a : A)
| Fail (err : error).
Arguments Ok {A} a.
Arguments Fail {A} err.

(** *** fmt verbs *)

(** The elements of a slice under [%v], separated by one space. *)
Fixpoint joinSpace (l : list string) : string :=
  match l with
  | [] => ""
  | [x] => x
  | x :: rest => x +:+ " " +:+ joinSpace rest
  end.

(** [%v] of a [[]string]. *)
Definition fmtStrings (l : list string) : string :=
  "[" +:+ joinSpace l +:+ "]".

(** [%v] of a [[]error]: every element is printed by its [Error()]. *)
Definition fmtErrors (l : list error) : string :=
  fmtStrings (Error <$> l).

(** [%d] of an [int]. *)
Definition fmtInt (n : Z) : string := pretty n.

(** ** API types *)

Module v1.
Record GroupVersionResource :=
  { Group : string; Version : string; Resource : string }.

Global Instance GroupVersionResource_eq_dec : EqDecision GroupVersionResource.
Proof. solve_decision. Defined.

(** [%v] of a [GroupVersionResource] value: its [String] method has a
    pointer receiver, so a value is printed as a plain struct. *)
Definition fmtGroupVersionResource (r : GroupVersionResource) : string :=
  "{" +:+ Group r +:+ " " +:+ Version r +:+ " " +:+ Resource r +:+ "}".

(** The part of a Namespace object the handler reads.  A nil
    annotation map is [None]. *)
Record Namespace := { Annotations : option (gmap string string) }.

Definition GetAnnotations (n : Namespace) : option (gmap string string) :=
  Annotations n.
End v1.

Module admissionv1.
(** [Operation] is a string type; JSON decoding stores whatever string
    the body carries. *)
Definition Operation := string.
Definition Delete : Operation := "DELETE".

Record AdmissionRequest :=
  { Name : string;
    Resource : v1.GroupVersionResource;
    Operation_ : Operation;
    Username : string }.

(** [new(admissionv1.AdmissionRequest)] *)
Definition newAdmissionRequest : AdmissionRequest :=
  {| Name := ""; Resource := v1.Build_GroupVersionResource "" "" "";
     Operation_ := ""; Username := "" |}.

(** [Result.Reason] is kept next to [Allowed]. *)
Record AdmissionResponse := { Allowed : bool; Reason : string }.

(** [Request] and [Response] are pointers: nil is [None]. *)
Record AdmissionReview :=
  { Request : option AdmissionRequest;
    Response : option AdmissionResponse }.
End admissionv1.

Import admissionv1.

(** ** The cluster client and the globals *)

(** The typed list endpoints the counters go through. *)
Inductive ApiResource :=
| Pods | Services | ReplicaSets | Deployments
| StatefulSets | DaemonSets | Ingresses | HorizontalPodAutoscalers.

Global Instance ApiResource_eq_dec : EqDecision ApiResource.
Proof. solve_decision. Defined.

(** An object returned by a list call; only the number of items is used. *)
Definition Object := string.

(** [kubernetes.Interface], restricted to the calls of listener.go. *)
Record Clientset :=
  { Namespaces_Get : string → Result v1.Namespace;
    List : ApiResource → string → Result (list Object) }.

Inductive ApiCall :=
| GetNamespace (name : string)
| ListItems (r : ApiResource) (namespace : string).

Global Instance ApiCall_eq_dec : EqDecision ApiCall.
Proof. solve_decision. Defined.

(** The process state a request handler runs in: the [admitAll] flag,
    the shared [clientset], and the API calls issued so far. *)
Record World :=
  { admitAll : bool;
    clientset : Clientset;
    issued : list ApiCall }.

Definition M (A : Type) : Type := World → A * World.

Definition ret {A} (a : A) : M A := λ w, (a, w).
Definition bind {A B} (m : M A) (k : A → M B) : M B :=
  λ w, let '(a, w') := m w in k a w'.

Notation "x <- m ;; k" := (bind m (λ x, k))
  (at level 100, m at next level, right associativity).

Definition readAdmitAll : M bool := λ w, (admitAll w, w).

Definition record (c : ApiCall) (w : World) : World :=
  {| admitAll := admitAll w; clientset := clientset w;
     issued := issued w ++ [c] |}.

(** [clientset.CoreV1().Namespaces().Get(name, ...)] *)
Definition getNamespace (name : string) : M (Result v1.Namespace) :=
  λ w, (Namespaces_Get (clientset w) name, record (GetNamespace name) w).

(** [clientset.<Group>().<Resource>(namespace).List(...)] *)
Definition listItems (r : ApiResource) (namespace : string)
  : M (Result (list Object)) :=
  λ w, (List (clientset w) r namespace, record (ListItems r namespace) w).

(** ** listener.go *)

Definition bypassAnnotationKey : string :=
  "k8s-namespace-guard.admission.yahoo.com/allow-cascade-delete".

Definition namespaceResourceType : v1.GroupVersionResource :=
  {| v1.Group := ""; v1.Version := "v1"; v1.Resource := "namespaces" |}.

(** What the handler leaves on the [http.ResponseWriter]. *)
Inductive Reply :=
| HttpError (status : Z) (text : string)
| Written (admReview : AdmissionReview)
| NilDereference.

(** [writeResponse] stores the verdict in the review and writes the
    encoded review.  (The log lines are not modelled.) *)
Definition writeResponse (admReview : AdmissionReview)
    (allowed : bool) (errorMsg : string) : Reply :=
  Written {| Request := Request admReview;
             Response := Some {| Allowed := allowed; Reason := errorMsg |} |}.

(** The body shared by the eight counters: list, then [len(list.Items)]. *)
Definition countItems (r : ApiResource) (namespace : string)
  : M (Z * option error) :=
  res <- listItems r namespace;;
  match res with
  | Fail err => ret (0%Z, Some err)
  | Ok items => ret (Z.of_nat (length items), None)
  end.

Definition podCounter := countItems Pods.
Definition serviceCounter := countItems Services.
Definition replicasetCounter := countItems ReplicaSets.
Definition deploymentCounter := countItems Deployments.
Definition statefulsetCounter := countItems StatefulSets.
Definition daemonsetCounter := countItems DaemonSets.
Definition ingressCounter := countItems Ingresses.
Definition autoScaleCounter := countItems HorizontalPodAutoscalers.

Definition Counter : Type := string → M (Z * option error).

Definition counters : list (string * Counter) :=
  [ ("pods", podCounter);
    ("services", serviceCounter);
    ("replicasets", replicasetCounter);
    ("deployments", deploymentCounter);
    ("statefulsets", statefulsetCounter);
    ("daemonsets", daemonsetCounter);
    ("ingresses", ingressCounter);
    ("horizontalpodautoscalers", autoScaleCounter) ].

(** The [for _, c := range counters] loop of
    [validateNamespaceDeletion], with [errList] and [nonEmptyList] as
    loop state. *)
Fixpoint countLoop (cs : list (string * Counter)) (namespace : string)
    (errList : list error) (nonEmptyList : list string)
  : M (list error * list string) :=
  match cs with
  | [] => ret (errList, nonEmptyList)
  | (kind, counter) :: rest =>
      counted <- counter namespace;;
      let '(num, err) := counted in
      match err with
      | Some err =>
          countLoop rest namespace
            (errList ++ [errors_New ("error listing " +:+ kind +:+ ", " +:+ Error err)])
            nonEmptyList
      | None =>
          if (0 <? num)%Z
          then countLoop rest namespace errList
                 (nonEmptyList ++ [kind +:+ "(" +:+ fmtInt num +:+ ")"])
          else countLoop rest namespace errList nonEmptyList
      end
  end.

Definition nonEmptySentence (namespace : string) (nonEmptyList : list string) : string :=
  "The namespace " +:+ namespace +:+
  " you are trying to remove contains one or more of these resources: " +:+
  fmtStrings nonEmptyList +:+ ". Please delete them and try again.".

Definition errorSentence (namespace : string) (errList : list error) : string :=
  "The following error(s) occurred while validating the DELETE operation on the namespace " +:+
  namespace +:+ ": " +:+ fmtErrors errList +:+ ".".

Definition bypassHint (namespace : string) : string :=
  " WARNING: If you know what you are doing, run `kubectl annotate namespace " +:+
  namespace +:+ " " +:+ bypassAnnotationKey +:+
  "=true` to bypass this policy check.".

(** Lines 149-160: the error string built from the two lists. *)
Definition describe (namespace : string)
    (errList : list error) (nonEmptyList : list string) : option error :=
  let errStr := "" in
  let errStr :=
    if bool_decide (0 < length nonEmptyList)
    then errStr +:+ nonEmptySentence namespace nonEmptyList else errStr in
  let errStr :=
    if bool_decide (0 < length errList)
    then errStr +:+ errorSentence namespace errList else errStr in
  if bool_decide (errStr ≠ "")
  then Some (errors_New (errStr +:+ bypassHint namespace))
  else None.

Definition validateNamespaceDeletion (namespace : string) : M (option error) :=
  lists <- countLoop counters namespace [] [];;
  let '(errList, nonEmptyList) := lists in
  ret (describe namespace errList nonEmptyList).

(** An incoming HTTP request.  [Body] is the outcome of
    [json.NewDecoder(req.Body).Decode(&admReview)]. *)
Record HttpRequest :=
  { Method : string;
    Path : string;
    Body : Result AdmissionReview }.

(** Lines 220-226: the bypass annotation test. *)
Definition bypassed (namespace : v1.Namespace) : bool :=
  match v1.GetAnnotations namespace with
  | Some annotations =>
      bool_decide (default "" (annotations !! bypassAnnotationKey) = "true")
  | None => false
  end.

Definition webhookHandler (req : HttpRequest) : M Reply :=
  if bool_decide (Method req ≠ "POST") then
    ret (HttpError 405
            ("Incoming request method " +:+ Method req +:+
             " is not supported, only POST is supported"))
  else if bool_decide (Path req ≠ "/") then
    ret (HttpError 404 (Path req +:+ " 404 Not Found"))
  else
    match Body req with
    | Fail err =>
        ret (writeResponse
                {| Request := Some newAdmissionRequest; Response := None |}
                false
                ("Failed to decode the request body json into an AdmissionReview resource: "
                 +:+ Error err))
    | Ok admReview =>
        match Request admReview with
        | None => ret NilDereference
        | Some request =>
            admitting <- readAdmitAll;;
            if admitting then ret (writeResponse admReview true "")
            else if bool_decide (Resource request ≠ namespaceResourceType) then
              ret (writeResponse admReview false
                      ("Incoming resource is not a Namespace: " +:+
                       v1.fmtGroupVersionResource (Resource request)))
            else if bool_decide (Operation_ request ≠ Delete) then
              ret (writeResponse admReview false
                      ("Incoming operation is " +:+ Operation_ request +:+
                       " on namespace " +:+ Name request +:+
                       ". Only DELETE is currently supported."))
            else
              got <- getNamespace (Name request);;
              match got with
              | Fail err =>
                  if NotFound err
                  then ret (writeResponse admReview true "")
                  else ret (writeResponse admReview false
                               ("Error occurred while retrieving the namespace " +:+
                                Name request +:+ ": " +:+ Error err))
              | Ok namespace =>
                  if bypassed namespace
                  then ret (writeResponse admReview true "")
                  else
                    err <- validateNamespaceDeletion (Name request);;
                    match err with
                    | Some err => ret (writeResponse admReview false (Error err))
                    | None => ret (writeResponse admReview true "")
                    end
              end
        end
    end.


(** ** Vocabulary for the properties *)

(** The verdict a reply carries, if it carries one. *)
Definition verdict (r : Reply) : option (bool * string) :=
  match r with
  | Written admReview =>
      (λ resp, (Allowed resp, Reason resp)) <$> Response admReview
  | _ => None
  end.

(** A request the handler can render an opinion on: a POST to "/" whose
    body decodes into a review that carries [request]. *)
Definition wellFormed (req : HttpRequest) (request : AdmissionRequest) : Prop :=
  Method req = "POST" ∧ Path req = "/" ∧
  ∃ admReview, Body req = Ok admReview ∧ Request admReview = Some request.

(** The namespace carries the bypass annotation with value "true". *)
Definition hasBypass (namespace : v1.Namespace) : Prop :=
  ∃ annotations, v1.Annotations namespace = Some annotations ∧
                 annotations !! bypassAnnotationKey = Some "true".

(** [s] occurs in [t]. *)
Definition occursIn (s t : string) : Prop :=
  ∃ before after, t = before +:+ s +:+ after.

(** Appending a batch of calls to the log. *)
Definition recordAll (cs : list ApiCall) (w : World) : World :=
  {| admitAll := admitAll w; clientset := clientset w;
     issued := issued w ++ cs |}.

(** What the cluster answers to a call. *)
Inductive ApiAnswer :=
| GotNamespace (r : Result v1.Namespace)
| Listed (r : Result (list Object)).

Definition answer (cs : Clientset) (c : ApiCall) : ApiAnswer :=
  match c with
  | GetNamespace name => GotNamespace (Namespaces_Get cs name)
  | ListItems r namespace => Listed (List cs r namespace)
  end.

(** The calls a run of the handler adds to the log. *)
Definition newCalls (req : HttpRequest) (w : World) : list ApiCall :=
  drop (length (issued w)) (issued (webhookHandler req w).2).

(** The reply and the calls of a run that starts from an empty log. *)
Definition decision (req : HttpRequest) (flag : bool) (cs : Clientset)
  : Reply * list ApiCall :=
  let run := webhookHandler req {| admitAll := flag; clientset := cs; issued := [] |} in
  (run.1, issued run.2).

(** The monitored kinds with the endpoint each counter lists. *)
Definition monitored : list (string * ApiResource) :=
  [ ("pods", Pods); ("services", Services); ("replicasets", ReplicaSets);
    ("deployments", Deployments); ("statefulsets", StatefulSets);
    ("daemonsets", DaemonSets); ("ingresses", Ingresses);
    ("horizontalpodautoscalers", HorizontalPodAutoscalers) ].

Definition toCounters (tbl : list (string * ApiResource)) : list (string * Counter) :=
  (λ kr, (kr.1, countItems kr.2)) <$> tbl.

Definition listCalls (tbl : list (string * ApiResource)) (namespace : string)
  : list ApiCall :=
  (λ kr, ListItems kr.2 namespace) <$> tbl.

(** *** The census as the specification words it

    A [ResourceKindQuery] pairs a kind label with a counting capability;
    [census] runs the queries in order and folds the outcomes into a
    [CensusResult]. *)

Definition ResourceKindQuery : Type := string * (string → Result Z).

Record CensusResult :=
  { nonEmptyKinds : list (string * Z);
    failedKinds : list (string * error) }.

Fixpoint census (namespace : string) (kinds : list ResourceKindQuery)
  : CensusResult :=
  match kinds with
  | [] => {| nonEmptyKinds := []; failedKinds := [] |}
  | (kind, query) :: rest =>
      let later := census namespace rest in
      match query namespace with
      | Ok count =>
          if (0 <? count)%Z
          then {| nonEmptyKinds := (kind, count) :: nonEmptyKinds later;
                  failedKinds := failedKinds later |}
          else later
      | Fail err =>
          {| nonEmptyKinds := nonEmptyKinds later;
             failedKinds := (kind, err) :: failedKinds later |}
      end
  end.

(** The counting capability the cluster client supplies for an endpoint. *)
Definition countQuery (cs : Clientset) (r : ApiResource) : string → Result Z :=
  λ namespace,
    match List cs r namespace with
    | Ok items => Ok (Z.of_nat (length items))
    | Fail err => Fail err
    end.

Definition queriesOf (cs : Clientset) (tbl : list (string * ApiResource))
  : list ResourceKindQuery :=
  (λ kr, (kr.1, countQuery cs kr.2)) <$> tbl.

(** How the source renders one record of either list. *)
Definition renderNonEmpty (rec : string * Z) : string :=
  rec.1 +:+ "(" +:+ fmtInt rec.2 +:+ ")".

Definition renderFailed (rec : string * error) : error :=
  errors_New ("error listing " +:+ rec.1 +:+ ", " +:+ Error rec.2).

(** ** Sample requests and a sample cluster

    The cluster of the scenarios: "ns1" carries the bypass annotation
    and holds three pods, "ns2" is empty, "ns3" holds two pods and one
    service, "ns4" does not exist, listing the ingresses of "ns5" fails,
    "ns6" cannot be retrieved, and "ns7" holds one pod and carries the
    annotation with the value "True". *)

Definition sampleNamespaces (name : string) : Result v1.Namespace :=
  if bool_decide (name = "ns4") then
    Fail {| Error := "namespaces ns4 not found"; NotFound := true |}
  else if bool_decide (name = "ns6") then
    Fail {| Error := "etcdserver: request timed out"; NotFound := false |}
  else if bool_decide (name = "ns1") then
    Ok {| v1.Annotations := Some {[ bypassAnnotationKey := "true" ]} |}
  else if bool_decide (name = "ns7") then
    Ok {| v1.Annotations := Some {[ bypassAnnotationKey := "True" ]} |}
  else Ok {| v1.Annotations := None |}.

Definition sampleLists (r : ApiResource) (namespace : string)
  : Result (list Object) :=
  match r with
  | Pods =>
      if bool_decide (namespace = "ns1") then Ok ["web-0"; "web-1"; "web-2"]
      else if bool_decide (namespace = "ns3") then Ok ["api-0"; "api-1"]
      else if bool_decide (namespace = "ns7") then Ok ["job-0"]
      else Ok []
  | Services =>
      if bool_decide (namespace = "ns3") then Ok ["api"] else Ok []
  | Ingresses =>
      if bool_decide (namespace = "ns5")
      then Fail {| Error := "connection refused"; NotFound := false |}
      else Ok []
  | _ => Ok []
  end.

Definition sampleCluster : Clientset :=
  {| Namespaces_Get := sampleNamespaces; List := sampleLists |}.

Definition world (flag : bool) : World :=
  {| admitAll := flag; clientset := sampleCluster; issued := [] |}.

Definition post (admReview : AdmissionReview) : HttpRequest :=
  {| Method := "POST"; Path := "/"; Body := Ok admReview |}.

Definition reviewOf (request : AdmissionRequest) : AdmissionReview :=
  {| Request := Some request; Response := None |}.

Definition deleteNamespace (name : string) : AdmissionRequest :=
  {| Name := name; Resource := namespaceResourceType;
     Operation_ := Delete; Username := "operator" |}.

Definition createNamespace (name : string) : AdmissionRequest :=
  {| Name := name; Resource := namespaceResourceType;
     Operation_ := "CREATE"; Username := "operator" |}.

Definition deletePod (name : string) : AdmissionRequest :=
  {| Name := name;
     Resource := {| v1.Group := ""; v1.Version := "v1"; v1.Resource := "pods" |};
     Operation_ := Delete; Username := "operator" |}.

Definition deleteOf (name : string) : HttpRequest :=
  post (reviewOf (deleteNamespace name)).

(** A POST whose body is a JSON document cut short: the decoder
    reports [io.ErrUnexpectedEOF]. *)
Definition undecodablePost : HttpRequest :=
  {| Method := "POST"; Path := "/";
     Body := Fail {| Error := "unexpected EOF"; NotFound := false |} |}.

(** A POST whose body is the JSON object without members: it decodes,
    and the review carries no request. *)
Definition emptyObjectPost : HttpRequest :=
  post {| Request := None; Response := None |}.

(** ** The paths through the handler

    [decodes req admReview request]: the request is a POST to "/" whose
    body decodes into [admReview], which carries [request]. *)
Definition decodes (req : HttpRequest) (admReview : AdmissionReview)
    (request : AdmissionRequest) : Prop :=
  Method req = "POST" ∧ Path req = "/" ∧
  Body req = Ok admReview ∧ Request admReview = Some request.

(** [Handles req w reply calls]: one constructor per return statement
    of [webhookHandler], with the tests that lead to it, the reply it
    writes and the API calls issued on the way. *)
Inductive Handles (req : HttpRequest) (w : World) : Reply → list ApiCall → Prop :=
| H_method :
    Method req ≠ "POST" →
    Handles req w
      (HttpError 405 ("Incoming request method " +:+ Method req +:+
                      " is not supported, only POST is supported")) []
| H_path :
    Method req = "POST" → Path req ≠ "/" →
    Handles req w (HttpError 404 (Path req +:+ " 404 Not Found")) []
| H_decode err :
    Method req = "POST" → Path req = "/" → Body req = Fail err →
    Handles req w
      (writeResponse {| Request := Some newAdmissionRequest; Response := None |}
         false
         ("Failed to decode the request body json into an AdmissionReview resource: "
          +:+ Error err)) []
| H_nil admReview :
    Method req = "POST" → Path req = "/" → Body req = Ok admReview →
    Request admReview = None →
    Handles req w NilDereference []
| H_admitAll admReview request :
    decodes req admReview request →
    admitAll w = true →
    Handles req w (writeResponse admReview true "") []
| H_resource admReview request :
    decodes req admReview request →
    admitAll w = false →
    Resource request ≠ namespaceResourceType →
    Handles req w
      (writeResponse admReview false
         ("Incoming resource is not a Namespace: " +:+
          v1.fmtGroupVersionResource (Resource request))) []
| H_operation admReview request :
    decodes req admReview request →
    admitAll w = false →
    Resource request = namespaceResourceType →
    Operation_ request ≠ Delete →
    Handles req w
      (writeResponse admReview false
         ("Incoming operation is " +:+ Operation_ request +:+
          " on namespace " +:+ Name request +:+
          ". Only DELETE is currently supported.")) []
| H_notFound admReview request err :
    decodes req admReview request →
    admitAll w = false →
    Resource request = namespaceResourceType →
    Operation_ request = Delete →
    Namespaces_Get (clientset w) (Name request) = Fail err →
    NotFound err = true →
    Handles req w (writeResponse admReview true "")
      [GetNamespace (Name request)]
| H_lookup admReview request err :
    decodes req admReview request →
    admitAll w = false →
    Resource request = namespaceResourceType →
    Operation_ request = Delete →
    Namespaces_Get (clientset w) (Name request) = Fail err →
    NotFound err = false →
    Handles req w
      (writeResponse admReview false
         ("Error occurred while retrieving the namespace " +:+
          Name request +:+ ": " +:+ Error err))
      [GetNamespace (Name request)]
| H_bypass admReview request namespace :
    decodes req admReview request →
    admitAll w = false →
    Resource request = namespaceResourceType →
    Operation_ request = Delete →
    Namespaces_Get (clientset w) (Name request) = Ok namespace →
    bypassed namespace = true →
    Handles req w (writeResponse admReview true "")
      [GetNamespace (Name request)]
| H_deny admReview request namespace err :
    decodes req admReview request →
    admitAll w = false →
    Resource request = namespaceResourceType →
    Operation_ request = Delete →
    Namespaces_Get (clientset w) (Name request) = Ok namespace →
    bypassed namespace = false →
    describe (Name request)
      (renderFailed <$> failedKinds
         (census (Name request) (queriesOf (clientset w) monitored)))
      (renderNonEmpty <$> nonEmptyKinds
         (census (Name request) (queriesOf (clientset w) monitored)))
      = Some err →
    Handles req w (writeResponse admReview false (Error err))
      (GetNamespace (Name request) :: listCalls monitored (Name request))
| H_clean admReview request namespace :
    decodes req admReview request →
    admitAll w = false →
    Resource request = namespaceResourceType →
    Operation_ request = Delete →
    Namespaces_Get (clientset w) (Name request) = Ok namespace →
    bypassed namespace = false →
    describe (Name request)
      (renderFailed <$> failedKinds
         (census (Name request) (queriesOf (clientset w) monitored)))
      (renderNonEmpty <$> nonEmptyKinds
         (census (Name request) (queriesOf (clientset w) monitored)))
      = None →
    Handles req w (writeResponse admReview true "")
      (GetNamespace (Name request) :: listCalls monitored (Name request)).

(** ** The start-up file: the cluster configuration

    [getKubernetesConfig] over the two library entry points it calls:
    [clientcmd.BuildConfigFromFlags] and [rest.InClusterConfig]. *)
Section KubernetesConfig.
Variable Config : Type.
Variable BuildConfigFromFlags : string → string → Result Config.
Variable InClusterConfig : Result Config.

Definition getKubernetesConfig (kubeConfig : string) : Result Config :=
  if bool_decide (kubeConfig = "") then
    match BuildConfigFromFlags "" kubeConfig with
    | Fail err => Fail err
    | Ok cfg => Ok cfg
    end
  else InClusterConfig.
End KubernetesConfig.

(** ** Properties *)

(** *** The counting loop *)

Lemma counters_monitored : counters = toCounters monitored.
Proof. reflexivity. Qed.

Lemma recordAll_nil w : recordAll [] w = w.
Proof. destruct w; unfold recordAll; simpl. by rewrite app_nil_r. Qed.

Lemma recordAll_record c cs w :
  recordAll cs (record c w) = recordAll (c :: cs) w.
Proof. unfold recordAll, record; simpl. by rewrite <- app_assoc. Qed.

(** The loop computes the rendering of the census, whatever the loop
    state it starts from, and issues one list call per table row. *)
Lemma countLoop_census tbl namespace errList nonEmptyList w :
  countLoop (toCounters tbl) namespace errList nonEmptyList w =
  let result := census namespace (queriesOf (clientset w) tbl) in
  ((errList ++ (renderFailed <$> failedKinds result),
    nonEmptyList ++ (renderNonEmpty <$> nonEmptyKinds result)),
   recordAll (listCalls tbl namespace) w).
Proof.
  revert errList nonEmptyList w.
  induction tbl as [|[kind r] tbl IH]; intros errList nonEmptyList w; simpl.
  - unfold ret. by rewrite !app_nil_r, recordAll_nil.
  - unfold bind at 1, countItems at 1, bind at 1, listItems at 1.
    unfold countQuery at 1 2; simpl.
    destruct (List (clientset w) r namespace) as [items|err]; unfold ret; simpl.
    + destruct (0 <? Z.of_nat (length items))%Z; rewrite IH; simpl;
        rewrite ?recordAll_record, <- ?app_assoc; done.
    + rewrite IH; simpl. rewrite recordAll_record, <- app_assoc. done.
Qed.

(** *** Strings *)

Lemma append_cons c s t : String c s +:+ t = String c (s +:+ t).
Proof. reflexivity. Qed.

Lemma append_nil_l s : "" +:+ s = s.
Proof. reflexivity. Qed.

Lemma append_nil_r s : s +:+ "" = s.
Proof. induction s as [|c s IH]; [done|]. by rewrite append_cons, IH. Qed.

Lemma append_assoc s t u : (s +:+ t) +:+ u = s +:+ t +:+ u.
Proof. induction s as [|c s IH]; [done|]. by rewrite !append_cons, IH. Qed.

Lemma append_nonempty_l s t : s ≠ "" → s +:+ t ≠ "".
Proof. destruct s; [done|]. intros _. by rewrite append_cons. Qed.

Lemma occursIn_refl s : occursIn s s.
Proof. exists "", "". by rewrite append_nil_l, append_nil_r. Qed.

Lemma occursIn_app_l s t u : occursIn s t → occursIn s (u +:+ t).
Proof.
  intros (before & after & ->). exists (u +:+ before), after.
  by rewrite append_assoc.
Qed.

Lemma occursIn_app_r s t u : occursIn s t → occursIn s (t +:+ u).
Proof.
  intros (before & after & ->). exists before, (after +:+ u).
  by rewrite !append_assoc.
Qed.

Lemma occursIn_prefix s u : occursIn s (s +:+ u).
Proof. apply occursIn_app_r, occursIn_refl. Qed.

Create HintDb occurs.
#[local] Hint Resolve occursIn_refl occursIn_prefix occursIn_app_l occursIn_app_r : occurs.

(** *** Entering the handler *)

(** A well-formed request passes the method and path tests and decodes;
    the handler is then at the [admitAll] test. *)
Ltac enter_handler Hwf :=
  let review := fresh "admReview" in
  let HM := fresh "HMethod" in
  let HP := fresh "HPath" in
  let HB := fresh "HBody" in
  let HR := fresh "HRequest" in
  destruct Hwf as (HM & HP & review & HB & HR);
  unfold webhookHandler; rewrite HM, HP, HB, HR; simpl;
  unfold bind at 1, readAdmitAll at 1.

Ltac pass_gate :=
  match goal with
  | |- context [bool_decide ?P] =>
      first [ rewrite (bool_decide_eq_true_2 P) by done
            | rewrite (bool_decide_eq_false_2 P) by (intros ?; done) ]
  end.

(** C3. A well-formed request whose resource type is not the namespace
    type (group "", version "v1", resource "namespaces") is denied, with
    a reason that prints the offending type and so names its resource;
    no API call, neither the lookup nor a list call, is issued. *)
Theorem resource_gate_denies req request w :
  wellFormed req request →
  admitAll w = false →
  Resource request ≠ namespaceResourceType →
  let reason := "Incoming resource is not a Namespace: " +:+
                v1.fmtGroupVersionResource (Resource request) in
  verdict (webhookHandler req w).1 = Some (false, reason) ∧
  occursIn (v1.Resource (Resource request)) reason ∧
  issued (webhookHandler req w).2 = issued w.
Proof.
  intros Hwf Hflag Hres reason.
  assert (∃ admReview,
            webhookHandler req w = (writeResponse admReview false reason, w))
    as [admReview Hrun].
  { enter_handler Hwf. rewrite Hflag. pass_gate. by eexists. }
  rewrite Hrun. split_and!; [done | | done].
  unfold reason, v1.fmtGroupVersionResource. auto 10 with occurs.
Qed.

Lemma wellFormed_post request : wellFormed (post (reviewOf request)) request.
Proof. repeat split. by exists (reviewOf request). Qed.

Lemma resource_gate_denies_witness :
  verdict (webhookHandler (post (reviewOf (deletePod "web-0"))) (world false)).1
    = Some (false, "Incoming resource is not a Namespace: { v1 pods}") ∧
  occursIn "pods" "Incoming resource is not a Namespace: { v1 pods}" ∧
  issued (webhookHandler (post (reviewOf (deletePod "web-0"))) (world false)).2 = [].
Proof.
  apply (resource_gate_denies _ (deletePod "web-0") (world false)).
  - apply wellFormed_post.
  - reflexivity.
  - discriminate.
Defined.

(** C4. A well-formed request on the namespace resource type whose
    operation is not DELETE is denied, and the reason names both the
    operation and the namespace. *)
Theorem operation_gate_denies req request w :
  wellFormed req request →
  admitAll w = false →
  Resource request = namespaceResourceType →
  Operation_ request ≠ Delete →
  let reason := "Incoming operation is " +:+ Operation_ request +:+
                " on namespace " +:+ Name request +:+
                ". Only DELETE is currently supported." in
  verdict (webhookHandler req w).1 = Some (false, reason) ∧
  occursIn (Operation_ request) reason ∧
  occursIn (Name request) reason ∧
  issued (webhookHandler req w).2 = issued w.
Proof.
  intros Hwf Hflag Hres Hop reason.
  assert (∃ admReview,
            webhookHandler req w = (writeResponse admReview false reason, w))
    as [admReview Hrun].
  { enter_handler Hwf. rewrite Hflag. do 2 pass_gate. by eexists. }
  rewrite Hrun. split_and!; [done | | | done]; unfold reason; auto 10 with occurs.
Qed.

Lemma operation_gate_denies_witness :
  verdict (webhookHandler (post (reviewOf (createNamespace "ns2"))) (world false)).1
    = Some (false, "Incoming operation is CREATE on namespace ns2. Only DELETE is currently supported.") ∧
  occursIn "CREATE" "Incoming operation is CREATE on namespace ns2. Only DELETE is currently supported." ∧
  occursIn "ns2" "Incoming operation is CREATE on namespace ns2. Only DELETE is currently supported." ∧
  issued (webhookHandler (post (reviewOf (createNamespace "ns2"))) (world false)).2 = [].
Proof.
  apply (operation_gate_denies _ (createNamespace "ns2") (world false)).
  - apply wellFormed_post.
  - reflexivity.
  - reflexivity.
  - discriminate.
Defined.

(** C7, as the code has it.  With [admitAll] set, every POST to "/"
    whose body decodes into a review carrying a request is allowed with
    an empty reason, whatever its resource type and operation, and no
    API call is issued; a POST to "/" whose body does not decode is
    denied even then, with the decoder's error text in the reason and
    no API call, because the decode step comes before the flag test. *)
Theorem admitAll_allows req w :
  Method req = "POST" →
  Path req = "/" →
  admitAll w = true →
  (∀ admReview request,
     Body req = Ok admReview → Request admReview = Some request →
     verdict (webhookHandler req w).1 = Some (true, "") ∧
     issued (webhookHandler req w).2 = issued w) ∧
  (∀ err,
     Body req = Fail err →
     verdict (webhookHandler req w).1 =
       Some (false,
             "Failed to decode the request body json into an AdmissionReview resource: "
             +:+ Error err) ∧
     issued (webhookHandler req w).2 = issued w).
Proof.
  intros HM HP Hflag. split.
  - intros admReview request HB HR.
    assert (wellFormed req request) as Hwf by (split_and!; [done..|by eexists]).
    assert (∃ admReview', webhookHandler req w = (writeResponse admReview' true "", w))
      as [admReview' Hrun].
    { enter_handler Hwf. rewrite Hflag. by eexists. }
    by rewrite Hrun.
  - intros err HB. unfold webhookHandler. by rewrite HM, HP, HB.
Qed.

Lemma admitAll_allows_witness :
  (verdict (webhookHandler (post (reviewOf (deletePod "web-0"))) (world true)).1
     = Some (true, "") ∧
   issued (webhookHandler (post (reviewOf (deletePod "web-0"))) (world true)).2 = []) ∧
  (verdict (webhookHandler undecodablePost (world true)).1
     = Some (false,
             "Failed to decode the request body json into an AdmissionReview resource: unexpected EOF") ∧
   issued (webhookHandler undecodablePost (world true)).2 = []).
Proof.
  split.
  - apply (proj1 (admitAll_allows (post (reviewOf (deletePod "web-0"))) (world true)
                    eq_refl eq_refl eq_refl)
             (reviewOf (deletePod "web-0")) (deletePod "web-0") eq_refl eq_refl).
  - apply (proj2 (admitAll_allows undecodablePost (world true)
                    eq_refl eq_refl eq_refl)
             {| Error := "unexpected EOF"; NotFound := false |} eq_refl).
Defined.

(** C7 does not hold for every request: with [admitAll] set, a POST to
    "/" whose body is a truncated JSON document is still denied,
    because the decode step comes before the flag test. *)
Lemma admitAll_undecodable_denied :
  admitAll (world true) = true ∧
  Method undecodablePost = "POST" ∧
  Path undecodablePost = "/" ∧
  verdict (webhookHandler undecodablePost (world true)).1
    = Some (false,
            "Failed to decode the request body json into an AdmissionReview resource: unexpected EOF").
Proof. split_and!; reflexivity. Qed.

(** C5. When the namespace lookup of a well-formed DELETE on the
    namespace resource type fails: a not-found error gives allow with an
    empty reason, any other error gives deny with a reason that ends
    with the error text; in both cases the lookup is the only API call
    issued, so no count query runs. *)
Theorem lookup_failure req request err w :
  wellFormed req request →
  admitAll w = false →
  Resource request = namespaceResourceType →
  Operation_ request = Delete →
  Namespaces_Get (clientset w) (Name request) = Fail err →
  let reason := "Error occurred while retrieving the namespace " +:+
                Name request +:+ ": " +:+ Error err in
  verdict (webhookHandler req w).1
    = Some (if NotFound err then (true, "") else (false, reason)) ∧
  occursIn (Error err) reason ∧
  issued (webhookHandler req w).2 = issued w ++ [GetNamespace (Name request)].
Proof.
  intros Hwf Hflag Hres Hop Hget reason.
  assert (∃ admReview,
            webhookHandler req w =
            (if NotFound err then writeResponse admReview true ""
             else writeResponse admReview false reason,
             record (GetNamespace (Name request)) w))
    as [admReview Hrun].
  { enter_handler Hwf. rewrite Hflag. do 2 pass_gate.
    unfold bind, getNamespace. rewrite Hget.
    exists admReview. by destruct (NotFound err). }
  rewrite Hrun. split_and!.
  - by destruct (NotFound err).
  - unfold reason. auto 10 with occurs.
  - done.
Qed.

Lemma lookup_failure_witness :
  (verdict (webhookHandler (post (reviewOf (deleteNamespace "ns4"))) (world false)).1
     = Some (true, "") ∧
   occursIn "namespaces ns4 not found"
     "Error occurred while retrieving the namespace ns4: namespaces ns4 not found" ∧
   issued (webhookHandler (post (reviewOf (deleteNamespace "ns4"))) (world false)).2
     = [GetNamespace "ns4"]) ∧
  (verdict (webhookHandler (post (reviewOf (deleteNamespace "ns6"))) (world false)).1
     = Some (false, "Error occurred while retrieving the namespace ns6: etcdserver: request timed out") ∧
   occursIn "etcdserver: request timed out"
     "Error occurred while retrieving the namespace ns6: etcdserver: request timed out" ∧
   issued (webhookHandler (post (reviewOf (deleteNamespace "ns6"))) (world false)).2
     = [GetNamespace "ns6"]).
Proof.
  split.
  - apply (lookup_failure _ (deleteNamespace "ns4")
             {| Error := "namespaces ns4 not found"; NotFound := true |} (world false));
      [apply wellFormed_post | reflexivity ..].
  - apply (lookup_failure _ (deleteNamespace "ns6")
             {| Error := "etcdserver: request timed out"; NotFound := false |} (world false));
      [apply wellFormed_post | reflexivity ..].
Defined.

(** The annotation test of the handler is exactly [hasBypass]. *)
Lemma bypassed_spec namespace : bypassed namespace = true ↔ hasBypass namespace.
Proof.
  unfold bypassed, hasBypass, v1.GetAnnotations.
  destruct (v1.Annotations namespace) as [annotations|].
  - rewrite bool_decide_eq_true. split.
    + intros Hv. exists annotations. split; [done|].
      destruct (annotations !! bypassAnnotationKey); simpl in Hv; by subst.
    + intros (? & [= <-] & ->). done.
  - split; [done|]. by intros (? & ? & ?).
Qed.

(** C2. A well-formed DELETE on the namespace resource type whose
    namespace maps the bypass key to exactly "true" is allowed, and the
    namespace lookup is the only API call issued: no count query runs. *)
Theorem bypass_allows req request namespace w :
  wellFormed req request →
  admitAll w = false →
  Resource request = namespaceResourceType →
  Operation_ request = Delete →
  Namespaces_Get (clientset w) (Name request) = Ok namespace →
  hasBypass namespace →
  verdict (webhookHandler req w).1 = Some (true, "") ∧
  issued (webhookHandler req w).2 = issued w ++ [GetNamespace (Name request)].
Proof.
  intros Hwf Hflag Hres Hop Hget Hbypass%bypassed_spec.
  assert (∃ admReview,
            webhookHandler req w =
            (writeResponse admReview true "", record (GetNamespace (Name request)) w))
    as [admReview Hrun].
  { enter_handler Hwf. rewrite Hflag. do 2 pass_gate.
    unfold bind, getNamespace. rewrite Hget, Hbypass. by eexists. }
  by rewrite Hrun.
Qed.

Lemma bypass_allows_witness :
  verdict (webhookHandler (post (reviewOf (deleteNamespace "ns1"))) (world false)).1
    = Some (true, "") ∧
  issued (webhookHandler (post (reviewOf (deleteNamespace "ns1"))) (world false)).2
    = [GetNamespace "ns1"].
Proof.
  apply (bypass_allows _ (deleteNamespace "ns1")
           {| v1.Annotations := Some {[ bypassAnnotationKey := "true" ]} |} (world false)).
  - apply wellFormed_post.
  - reflexivity.
  - reflexivity.
  - reflexivity.
  - reflexivity.
  - eexists. split; [reflexivity|]. apply lookup_singleton_eq.
Defined.

(** *** The census *)

Section Census.
Variable cs : Clientset.
Variable namespace : string.

Lemma census_nonEmpty_elem tbl kind count :
  (kind, count) ∈ nonEmptyKinds (census namespace (queriesOf cs tbl)) ↔
  ∃ r, (kind, r) ∈ tbl ∧ countQuery cs r namespace = Ok count ∧ (0 < count)%Z.
Proof.
  induction tbl as [|[k r] tbl IH]; simpl.
  - split; [by intros ?%elem_of_nil | by intros (? & ?%elem_of_nil & _)].
  - destruct (countQuery cs r namespace) as [n|err] eqn:Hq;
      [destruct (0 <? n)%Z eqn:Hpos|]; simpl;
      rewrite ?elem_of_cons, IH; split.
    + intros [[= -> ->]|(r' & ? & ?)].
      * exists r. rewrite elem_of_cons. split_and!; [by left | done | lia].
      * exists r'. rewrite elem_of_cons. split; [by right | done].
    + intros (r' & [[= -> ->]|?]%elem_of_cons & Hq' & ?).
      * left. congruence.
      * right. by exists r'.
    + intros (r' & ? & ?). exists r'. rewrite elem_of_cons. split; [by right | done].
    + intros (r' & [[= -> ->]|?]%elem_of_cons & Hq' & ?).
      * assert (n = count) as -> by congruence. lia.
      * by exists r'.
    + intros (r' & ? & ?). exists r'. rewrite elem_of_cons. split; [by right | done].
    + intros (r' & [[= -> ->]|?]%elem_of_cons & Hq' & ?).
      * congruence.
      * by exists r'.
Qed.

Lemma census_failed_elem tbl kind err :
  (kind, err) ∈ failedKinds (census namespace (queriesOf cs tbl)) ↔
  ∃ r, (kind, r) ∈ tbl ∧ countQuery cs r namespace = Fail err.
Proof.
  induction tbl as [|[k r] tbl IH]; simpl.
  - split; [by intros ?%elem_of_nil | by intros (? & ?%elem_of_nil & _)].
  - destruct (countQuery cs r namespace) as [n|e] eqn:Hq;
      [destruct (0 <? n)%Z|]; simpl;
      rewrite ?elem_of_cons, IH; split.
    + intros (r' & ? & ?). exists r'. rewrite elem_of_cons. split; [by right | done].
    + intros (r' & [[= -> ->]|?]%elem_of_cons & Hq'); [congruence | by exists r'].
    + intros (r' & ? & ?). exists r'. rewrite elem_of_cons. split; [by right | done].
    + intros (r' & [[= -> ->]|?]%elem_of_cons & Hq'); [congruence | by exists r'].
    + intros [[= -> ->]|(r' & ? & ?)].
      * exists r. rewrite elem_of_cons. split; [by left | done].
      * exists r'. rewrite elem_of_cons. split; [by right | done].
    + intros (r' & [[= -> ->]|?]%elem_of_cons & Hq').
      * left. congruence.
      * right. by exists r'.
Qed.

(** Both lists keep the order of the table. *)
Lemma census_sublist tbl :
  (nonEmptyKinds (census namespace (queriesOf cs tbl))).*1 `sublist_of` tbl.*1 ∧
  (failedKinds (census namespace (queriesOf cs tbl))).*1 `sublist_of` tbl.*1.
Proof.
  induction tbl as [|[k r] tbl [IHn IHf]]; simpl; [done|].
  destruct (countQuery cs r namespace) as [n|e];
    [destruct (0 <? n)%Z|]; simpl; split;
    first [ by apply sublist_skip | by apply sublist_cons ].
Qed.

(** A kind is recorded at most once over the two lists together. *)
Lemma census_submseteq tbl :
  (nonEmptyKinds (census namespace (queriesOf cs tbl))).*1 ++
  (failedKinds (census namespace (queriesOf cs tbl))).*1 ⊆+ tbl.*1.
Proof.
  induction tbl as [|[k r] tbl IH]; simpl; [done|].
  destruct (countQuery cs r namespace) as [n|e];
    [destruct (0 <? n)%Z|]; simpl.
  - by apply submseteq_skip.
  - by apply submseteq_cons.
  - rewrite <- Permutation_middle. by apply submseteq_skip.
Qed.

End Census.

Lemma NoDup_of_submseteq {A} (l k : list A) : l ⊆+ k → NoDup k → NoDup l.
Proof.
  intros [k' Hk]%submseteq_Permutation Hnodup.
  rewrite Hk in Hnodup. by apply NoDup_app in Hnodup as (? & _ & _).
Qed.

Lemma monitored_NoDup : NoDup monitored.*1.
Proof. apply (bool_decide_unpack _). vm_compute. exact I. Qed.

(** C6. The counting loop issues one list call per monitored kind, in
    the declared order pods, services, replicasets, deployments,
    statefulsets, daemonsets, ingresses, horizontalpodautoscalers,
    whatever the earlier answers were, and always returns its two
    lists.  The lists render the census records: a kind is in
    nonEmptyKinds with its count exactly when its query succeeded with
    a positive count, in failedKinds with its error exactly when its
    query failed, and both lists follow the declared order. *)
Theorem census_full_scan namespace w :
  let result := census namespace (queriesOf (clientset w) monitored) in
  let order := ["pods"; "services"; "replicasets"; "deployments";
                "statefulsets"; "daemonsets"; "ingresses";
                "horizontalpodautoscalers"] in
  countLoop counters namespace [] [] w =
    ((renderFailed <$> failedKinds result,
      renderNonEmpty <$> nonEmptyKinds result),
     recordAll [ListItems Pods namespace; ListItems Services namespace;
                ListItems ReplicaSets namespace; ListItems Deployments namespace;
                ListItems StatefulSets namespace; ListItems DaemonSets namespace;
                ListItems Ingresses namespace;
                ListItems HorizontalPodAutoscalers namespace] w) ∧
  (∀ kind count,
     (kind, count) ∈ nonEmptyKinds result ↔
     ∃ r, (kind, r) ∈ monitored ∧
          countQuery (clientset w) r namespace = Ok count ∧ (0 < count)%Z) ∧
  (∀ kind err,
     (kind, err) ∈ failedKinds result ↔
     ∃ r, (kind, r) ∈ monitored ∧
          countQuery (clientset w) r namespace = Fail err) ∧
  (nonEmptyKinds result).*1 `sublist_of` order ∧
  (failedKinds result).*1 `sublist_of` order.
Proof.
  intros result order. split_and!.
  - rewrite counters_monitored, countLoop_census. done.
  - intros kind count. apply census_nonEmpty_elem.
  - intros kind err. apply census_failed_elem.
  - apply (census_sublist (clientset w) namespace monitored).
  - apply (census_sublist (clientset w) namespace monitored).
Qed.

(** C10. The two lists the loop returns render census records in which
    every kind occurs at most once over both lists together: no kind is
    repeated in a list, and a kind whose query failed is not in
    nonEmptyKinds. *)
Theorem census_kinds_once namespace w :
  let result := census namespace (queriesOf (clientset w) monitored) in
  (countLoop counters namespace [] [] w).1 =
    (renderFailed <$> failedKinds result,
     renderNonEmpty <$> nonEmptyKinds result) ∧
  NoDup ((nonEmptyKinds result).*1 ++ (failedKinds result).*1) ∧
  NoDup (nonEmptyKinds result).*1 ∧
  NoDup (failedKinds result).*1 ∧
  (∀ kind, kind ∈ (failedKinds result).*1 → kind ∉ (nonEmptyKinds result).*1).
Proof.
  intros result.
  assert (NoDup ((nonEmptyKinds result).*1 ++ (failedKinds result).*1)) as Hnodup.
  { eapply NoDup_of_submseteq; [apply census_submseteq | apply monitored_NoDup]. }
  split_and!.
  - rewrite counters_monitored, countLoop_census. done.
  - done.
  - by apply NoDup_app in Hnodup as (? & _ & _).
  - by apply NoDup_app in Hnodup as (_ & _ & ?).
  - apply NoDup_app in Hnodup as (_ & Hdisj & _).
    intros kind Hf Hn. by apply (Hdisj kind).
Qed.

(** *** The denial reason *)

Lemma append_nonempty_r s t : t ≠ "" → s +:+ t ≠ "".
Proof. destruct s; [done|]. intros _. by rewrite append_cons. Qed.

Lemma bypassHint_nonempty namespace : bypassHint namespace ≠ "".
Proof. done. Qed.

Lemma nonEmptySentence_nonempty namespace l : nonEmptySentence namespace l ≠ "".
Proof. done. Qed.

Lemma errorSentence_nonempty namespace l : errorSentence namespace l ≠ "".
Proof. done. Qed.

(** The error string by cases on the two lists. *)
Lemma describe_spec namespace errList nonEmptyList :
  describe namespace errList nonEmptyList =
  match nonEmptyList, errList with
  | [], [] => None
  | _, _ =>
      Some (errors_New
              ((if nonEmptyList is [] then ""
                else nonEmptySentence namespace nonEmptyList) +:+
               (if errList is [] then ""
                else errorSentence namespace errList) +:+
               bypassHint namespace))
  end.
Proof.
  unfold describe.
  destruct nonEmptyList as [|x nonEmptyList], errList as [|e errList]; simpl length.
  - done.
  - rewrite (bool_decide_eq_false_2 (0 < 0)) by lia.
    rewrite (bool_decide_eq_true_2 (0 < S _)) by lia.
    by rewrite bool_decide_eq_true_2.
  - rewrite (bool_decide_eq_true_2 (0 < S _)) by lia.
    rewrite (bool_decide_eq_false_2 (0 < 0)) by lia.
    rewrite bool_decide_eq_true_2 by done.
    by rewrite append_nil_l.
  - rewrite !(bool_decide_eq_true_2 (0 < S _)) by lia.
    rewrite bool_decide_eq_true_2 by done.
    by rewrite append_nil_l, append_assoc.
Qed.

Lemma validateNamespaceDeletion_census namespace w :
  validateNamespaceDeletion namespace w =
  let result := census namespace (queriesOf (clientset w) monitored) in
  (describe namespace (renderFailed <$> failedKinds result)
                      (renderNonEmpty <$> nonEmptyKinds result),
   recordAll (listCalls monitored namespace) w).
Proof.
  unfold validateNamespaceDeletion, bind.
  by rewrite counters_monitored, countLoop_census.
Qed.

Lemma occursIn_joinSpace x l : x ∈ l → occursIn x (joinSpace l).
Proof.
  induction l as [|y l IH]; [by intros ?%elem_of_nil|].
  intros [->|Hin]%elem_of_cons.
  - destruct l; simpl; auto with occurs.
  - destruct l as [|z l]; [by apply elem_of_nil in Hin|].
    change (occursIn x (y +:+ " " +:+ joinSpace (z :: l))). auto with occurs.
Qed.

Lemma occursIn_fmtStrings x l : x ∈ l → occursIn x (fmtStrings l).
Proof. intros ?%occursIn_joinSpace. unfold fmtStrings. auto with occurs. Qed.

(** C1. For a well-formed DELETE on the namespace resource type with
    the flag off, a namespace that was found and carries no effective
    bypass annotation: the verdict is allow with an empty reason exactly
    when both census lists are empty; otherwise it is deny and the
    reason is the kinds sentence (present when nonEmptyKinds is not
    empty, listing every kind with its count), then the errors sentence
    (present when failedKinds is not empty, listing every kind with its
    error), then the bypass instruction; one of the two sentences is
    present. *)
Theorem census_verdict req request namespace w :
  wellFormed req request →
  admitAll w = false →
  Resource request = namespaceResourceType →
  Operation_ request = Delete →
  Namespaces_Get (clientset w) (Name request) = Ok namespace →
  ¬ hasBypass namespace →
  let result := census (Name request) (queriesOf (clientset w) monitored) in
  let kindsClause :=
    if nonEmptyKinds result is [] then ""
    else nonEmptySentence (Name request) (renderNonEmpty <$> nonEmptyKinds result) in
  let errorsClause :=
    if failedKinds result is [] then ""
    else errorSentence (Name request) (renderFailed <$> failedKinds result) in
  verdict (webhookHandler req w).1 =
    Some (match nonEmptyKinds result, failedKinds result with
          | [], [] => (true, "")
          | _, _ => (false, kindsClause +:+ errorsClause +:+ bypassHint (Name request))
          end) ∧
  (nonEmptyKinds result ≠ [] ∨ failedKinds result ≠ [] →
   kindsClause ≠ "" ∨ errorsClause ≠ "") ∧
  (∀ kind count, (kind, count) ∈ nonEmptyKinds result →
     occursIn (kind +:+ "(" +:+ fmtInt count +:+ ")") kindsClause) ∧
  (∀ kind err, (kind, err) ∈ failedKinds result →
     occursIn ("error listing " +:+ kind +:+ ", " +:+ Error err) errorsClause).
Proof.
  intros Hwf Hflag Hres Hop Hget Hnobypass result kindsClause errorsClause.
  assert (bypassed namespace = false) as Hb.
  { destruct (bypassed namespace) eqn:Hb; [|done].
    by apply bypassed_spec in Hb. }
  split_and!.
  - enter_handler Hwf. rewrite Hflag. do 2 pass_gate.
    unfold bind at 1, getNamespace at 1. rewrite Hget, Hb.
    unfold bind. rewrite validateNamespaceDeletion_census. cbv zeta.
    rewrite describe_spec.
    change (clientset (record (GetNamespace (Name request)) w)) with (clientset w).
    fold result. subst kindsClause errorsClause. clearbody result.
    by destruct (nonEmptyKinds result), (failedKinds result).
  - subst kindsClause errorsClause. clearbody result.
    destruct (nonEmptyKinds result), (failedKinds result); intros [?|?];
      first [ done | by left | by right ].
  - intros kind count Hin. subst kindsClause. clearbody result.
    destruct (nonEmptyKinds result) as [|rec l] eqn:Hl; [by apply elem_of_nil in Hin|].
    unfold nonEmptySentence.
    assert (occursIn (renderNonEmpty (kind, count))
              (fmtStrings (renderNonEmpty <$> rec :: l))) as Hocc.
    { apply occursIn_fmtStrings, list_elem_of_fmap. by exists (kind, count). }
    unfold renderNonEmpty in Hocc at 1. simpl in Hocc. auto 10 with occurs.
  - intros kind err Hin. subst errorsClause. clearbody result.
    destruct (failedKinds result) as [|rec l] eqn:Hl; [by apply elem_of_nil in Hin|].
    unfold errorSentence, fmtErrors.
    assert (occursIn (Error (renderFailed (kind, err)))
              (fmtStrings (Error <$> (renderFailed <$> rec :: l)))) as Hocc.
    { apply occursIn_fmtStrings, list_elem_of_fmap.
      exists (renderFailed (kind, err)). split; [done|].
      apply list_elem_of_fmap. by exists (kind, err). }
    simpl in Hocc. auto 10 with occurs.
Qed.

Lemma census_verdict_witness :
  verdict (webhookHandler (post (reviewOf (deleteNamespace "ns3"))) (world false)).1
    = Some (false,
            "The namespace ns3 you are trying to remove contains one or more of these resources: [pods(2) services(1)]. Please delete them and try again. WARNING: If you know what you are doing, run `kubectl annotate namespace ns3 k8s-namespace-guard.admission.yahoo.com/allow-cascade-delete=true` to bypass this policy check.") ∧
  verdict (webhookHandler (post (reviewOf (deleteNamespace "ns2"))) (world false)).1
    = Some (true, "").
Proof.
  split.
  - refine (proj1 (census_verdict _ (deleteNamespace "ns3")
                     {| v1.Annotations := None |} (world false) _ _ _ _ _ _)).
    + apply wellFormed_post.
    + reflexivity.
    + reflexivity.
    + reflexivity.
    + reflexivity.
    + intros (annotations & Hsome & _). discriminate Hsome.
  - refine (proj1 (census_verdict _ (deleteNamespace "ns2")
                     {| v1.Annotations := None |} (world false) _ _ _ _ _ _)).
    + apply wellFormed_post.
    + reflexivity.
    + reflexivity.
    + reflexivity.
    + reflexivity.
    + intros (annotations & Hsome & _). discriminate Hsome.
Defined.

(** *** Every verdict *)

(** C8. Whatever the request, malformed bodies included, a verdict the
    handler produces has a non-empty reason when it denies and an empty
    reason when it allows. *)
Theorem denial_carries_reason req w allowed reason :
  verdict (webhookHandler req w).1 = Some (allowed, reason) →
  (allowed = false → reason ≠ "") ∧ (allowed = true → reason = "").
Proof.
  unfold webhookHandler.
  case_bool_decide; [done|].
  case_bool_decide; [done|].
  destruct (Body req) as [admReview|err].
  2:{ simpl. intros [= <- <-]. split; [|done]. intros _. done. }
  destruct (Request admReview) as [request|]; [|done].
  unfold bind at 1, readAdmitAll at 1.
  destruct (admitAll w).
  { simpl. intros [= <- <-]. done. }
  case_bool_decide.
  { simpl. intros [= <- <-]. done. }
  case_bool_decide.
  { simpl. intros [= <- <-]. done. }
  unfold bind at 1, getNamespace at 1.
  destruct (Namespaces_Get (clientset w) (Name request)) as [namespace|err].
  2:{ destruct (NotFound err); simpl; intros [= <- <-]; done. }
  destruct (bypassed namespace).
  { simpl. intros [= <- <-]. done. }
  unfold bind. rewrite validateNamespaceDeletion_census. cbv zeta.
  rewrite describe_spec.
  generalize (census (Name request)
                (queriesOf (clientset (record (GetNamespace (Name request)) w)) monitored)).
  intros result.
  destruct (nonEmptyKinds result), (failedKinds result); simpl;
    intros [= <- <-]; split; try done; intros _.
  all: try (rewrite append_nil_l).
  all: try (apply append_nonempty_l; done).
  all: apply append_nonempty_r; done.
Qed.

Lemma denial_carries_reason_witness :
  (false = false →
   "Failed to decode the request body json into an AdmissionReview resource: unexpected EOF" ≠ "") ∧
  (false = true →
   "Failed to decode the request body json into an AdmissionReview resource: unexpected EOF" = "").
Proof.
  apply (denial_carries_reason undecodablePost (world false)). reflexivity.
Defined.

(** A body that decodes into a review without a request makes the
    handler dereference nil before any verdict is written. *)
Example emptyObject_no_verdict :
  webhookHandler emptyObjectPost (world false) = (NilDereference, world false).
Proof. reflexivity. Qed.

(** The annotation value is compared as a string: "True" does not
    bypass the census. *)
Example bypass_is_case_sensitive :
  ∃ reason, verdict (webhookHandler (deleteOf "ns7") (world false)).1
            = Some (false, reason) ∧ occursIn "pods(1)" reason.
Proof.
  eexists. split; [vm_compute; reflexivity|].
  exists "The namespace ns7 you are trying to remove contains one or more of these resources: [". eexists. reflexivity.
Qed.

(** *** Determinism *)

Lemma census_ext cs1 cs2 namespace tbl :
  (∀ c, c ∈ listCalls tbl namespace → answer cs1 c = answer cs2 c) →
  census namespace (queriesOf cs1 tbl) = census namespace (queriesOf cs2 tbl).
Proof.
  induction tbl as [|[kind r] tbl IH]; intros Hagree; simpl; [done|].
  assert (List cs1 r namespace = List cs2 r namespace) as Hlist.
  { assert (answer cs1 (ListItems r namespace) = answer cs2 (ListItems r namespace)) as Ha.
    { apply Hagree. simpl. apply elem_of_cons. by left. }
    by injection Ha. }
  unfold countQuery at 1 2. rewrite Hlist, IH; [done|].
  intros c Hc. apply Hagree. simpl. apply elem_of_cons. by right.
Qed.

Ltac world_simpl :=
  cbn [admitAll clientset issued record recordAll fst snd app].

Lemma handler_run req w :
  webhookHandler req w =
  ((decision req (admitAll w) (clientset w)).1,
   recordAll (decision req (admitAll w) (clientset w)).2 w).
Proof.
  unfold decision, webhookHandler, bind, readAdmitAll, getNamespace, ret.
  case_bool_decide; [by rewrite recordAll_nil|].
  case_bool_decide; [by rewrite recordAll_nil|].
  destruct (Body req) as [admReview|err]; [|by rewrite recordAll_nil].
  destruct (Request admReview) as [request|]; [|by rewrite recordAll_nil].
  world_simpl.
  destruct (admitAll w); [by rewrite recordAll_nil|].
  case_bool_decide; [by rewrite recordAll_nil|].
  case_bool_decide; [by rewrite recordAll_nil|].
  world_simpl.
  destruct (Namespaces_Get (clientset w) (Name request)) as [namespace|err].
  2:{ by destruct (NotFound err). }
  destruct (bypassed namespace); [done|].
  rewrite !validateNamespaceDeletion_census. cbv zeta. world_simpl.
  generalize (census (Name request) (queriesOf (clientset w) monitored)).
  intros result.
  destruct (describe _ _ _); unfold recordAll; world_simpl;
    by rewrite <- app_assoc.
Qed.

Lemma newCalls_decision req w :
  newCalls req w = (decision req (admitAll w) (clientset w)).2.
Proof.
  unfold newCalls. rewrite handler_run. world_simpl.
  by rewrite drop_app_length.
Qed.

Lemma decision_agree req flag cs1 cs2 :
  (∀ c, c ∈ (decision req flag cs1).2 → answer cs1 c = answer cs2 c) →
  decision req flag cs1 = decision req flag cs2.
Proof.
  unfold decision, webhookHandler, bind, readAdmitAll, getNamespace, ret.
  case_bool_decide; [done|].
  case_bool_decide; [done|].
  destruct (Body req) as [admReview|err]; [|done].
  destruct (Request admReview) as [request|]; [|done].
  world_simpl.
  destruct flag; [done|].
  case_bool_decide; [done|].
  case_bool_decide; [done|].
  world_simpl. intros Hagree.
  assert (Namespaces_Get cs1 (Name request) = Namespaces_Get cs2 (Name request))
    as Hget.
  { assert (answer cs1 (GetNamespace (Name request))
            = answer cs2 (GetNamespace (Name request))) as Ha; [|by injection Ha].
    apply Hagree.
    destruct (Namespaces_Get cs1 (Name request)) as [namespace|err].
    2:{ destruct (NotFound err); world_simpl; apply elem_of_cons; by left. }
    destruct (bypassed namespace); [world_simpl; apply elem_of_cons; by left|].
    rewrite validateNamespaceDeletion_census. cbv zeta.
    destruct (describe _ _ _); world_simpl; apply elem_of_cons; by left. }
  rewrite <- Hget.
  destruct (Namespaces_Get cs1 (Name request)) as [namespace|err]. 2:{ by destruct (NotFound err). }
  destruct (bypassed namespace); [done|].
  rewrite !validateNamespaceDeletion_census in *. cbv zeta in *.
  cbn [admitAll clientset issued record recordAll fst snd app] in *.
  rewrite <- (census_ext cs1 cs2 (Name request) monitored).
  - by destruct (describe _ _ _).
  - intros c Hc. apply Hagree.
    destruct (describe _ _ _); cbn [issued snd]; apply elem_of_cons; by right.
Qed.

(** C9. Two runs of the handler on the same request, with the same
    flag and with clusters that answer alike every call the first run
    issues, write the same reply (hence the same verdict and reason) and
    issue the same calls; a run leaves the flag and the client as they
    were and only extends the call log. *)
Theorem handler_deterministic req w1 w2 :
  admitAll w1 = admitAll w2 →
  (∀ c, c ∈ newCalls req w1 → answer (clientset w1) c = answer (clientset w2) c) →
  (webhookHandler req w1).1 = (webhookHandler req w2).1 ∧
  newCalls req w1 = newCalls req w2 ∧
  admitAll (webhookHandler req w1).2 = admitAll w1 ∧
  clientset (webhookHandler req w1).2 = clientset w1 ∧
  issued (webhookHandler req w1).2 = issued w1 ++ newCalls req w1.
Proof.
  intros Hflag Hagree.
  rewrite !newCalls_decision in *. rewrite !handler_run. world_simpl.
  rewrite <- Hflag.
  rewrite <- (decision_agree req (admitAll w1) (clientset w1) (clientset w2)); done.
Qed.

Lemma handler_deterministic_witness :
  (webhookHandler (deleteOf "ns3") (world false)).1 =
  (webhookHandler (deleteOf "ns3") (webhookHandler (deleteOf "ns3") (world false)).2).1 ∧
  newCalls (deleteOf "ns3") (world false) =
  newCalls (deleteOf "ns3") (webhookHandler (deleteOf "ns3") (world false)).2 ∧
  admitAll (webhookHandler (deleteOf "ns3") (world false)).2 = false ∧
  clientset (webhookHandler (deleteOf "ns3") (world false)).2 = sampleCluster ∧
  issued (webhookHandler (deleteOf "ns3") (world false)).2 =
    [] ++ newCalls (deleteOf "ns3") (world false).
Proof.
  apply (handler_deterministic (deleteOf "ns3") (world false)
           (webhookHandler (deleteOf "ns3") (world false)).2).
  - reflexivity.
  - intros c _. reflexivity.
Defined.

(** *** The paths of the handler *)

(** Every run of the handler takes one of the paths of [Handles], and
    leaves the world as it was but for the calls of that path. *)
Lemma handler_Handles req w :
  ∃ reply calls,
    Handles req w reply calls ∧
    webhookHandler req w = (reply, recordAll calls w).
Proof.
  unfold webhookHandler, bind, readAdmitAll, getNamespace, ret.
  case_bool_decide as HM.
  { eexists _, []. rewrite recordAll_nil. split; [by constructor | done]. }
  case_bool_decide as HP.
  { eexists _, []. rewrite recordAll_nil. split; [by constructor | done]. }
  destruct (Body req) as [admReview|err] eqn:HB.
  2:{ eexists _, []. rewrite recordAll_nil. split; [by eapply H_decode | done]. }
  destruct (Request admReview) as [request|] eqn:HR.
  2:{ eexists _, []. rewrite recordAll_nil. split; [by eapply H_nil | done]. }
  assert (decodes req admReview request) as Hdec by done.
  destruct (admitAll w) eqn:Hflag.
  { eexists _, []. rewrite recordAll_nil. split; [by eapply H_admitAll | done]. }
  case_bool_decide as Hres.
  { eexists _, []. rewrite recordAll_nil. split; [by eapply H_resource | done]. }
  case_bool_decide as Hop.
  { eexists _, []. rewrite recordAll_nil. split; [by eapply H_operation | done]. }
  destruct (Namespaces_Get (clientset w) (Name request)) as [namespace|err] eqn:Hget.
  2:{ destruct (NotFound err) eqn:Hnf; eexists _, [_];
        (split; [first [by eapply H_notFound | by eapply H_lookup] | done]). }
  destruct (bypassed namespace) eqn:Hb.
  { eexists _, [_]. split; [by eapply H_bypass | done]. }
  rewrite validateNamespaceDeletion_census. cbv zeta. world_simpl.
  destruct (describe _ _ _) as [err|] eqn:Hd; eexists _, (_ :: _).
  - split; [by eapply H_deny|]. by rewrite <- recordAll_record.
  - split; [by eapply H_clean|]. by rewrite <- recordAll_record.
Qed.

Lemma newCalls_recordAll req w reply calls :
  webhookHandler req w = (reply, recordAll calls w) → newCalls req w = calls.
Proof.
  unfold newCalls. intros ->. simpl. by rewrite drop_app_length.
Qed.

(** *** What the eight lists decide *)

Lemma monitored_all r : ∃ kind, (kind, r) ∈ monitored.
Proof.
  unfold monitored.
  destruct r; eexists;
    repeat first [ apply list_elem_of_here | apply list_elem_of_further ].
Qed.

Lemma countQuery_Ok cs r namespace count :
  countQuery cs r namespace = Ok count ↔
  ∃ items, List cs r namespace = Ok items ∧ count = Z.of_nat (length items).
Proof.
  unfold countQuery. destruct (List cs r namespace) as [items|err]; split.
  - intros [= <-]. by exists items.
  - by intros (? & [= <-] & ->).
  - done.
  - by intros (? & ? & _).
Qed.

Lemma countQuery_Fail cs r namespace err :
  countQuery cs r namespace = Fail err ↔ List cs r namespace = Fail err.
Proof.
  unfold countQuery. destruct (List cs r namespace); [done|].
  split; by intros [= ->].
Qed.

(** Both census lists are empty exactly when every list call succeeds
    with no item. *)
Lemma census_empty_iff cs namespace :
  nonEmptyKinds (census namespace (queriesOf cs monitored)) = [] ∧
  failedKinds (census namespace (queriesOf cs monitored)) = [] ↔
  ∀ r, List cs r namespace = Ok [].
Proof.
  split.
  - intros [Hne Hfl] r. destruct (monitored_all r) as [kind Hin].
    destruct (List cs r namespace) as [[|item items]|err] eqn:Hlist; [done| |].
    + assert ((kind, Z.of_nat (length (item :: items)))
              ∈ nonEmptyKinds (census namespace (queriesOf cs monitored))) as Hel.
      { apply census_nonEmpty_elem. exists r. split_and!; [done| |simpl; lia].
        apply countQuery_Ok. by eexists. }
      rewrite Hne in Hel. by apply elem_of_nil in Hel.
    + assert ((kind, err)
              ∈ failedKinds (census namespace (queriesOf cs monitored))) as Hel.
      { apply census_failed_elem. exists r. split; [done|].
        by apply countQuery_Fail. }
      rewrite Hfl in Hel. by apply elem_of_nil in Hel.
  - intros Hall. split.
    + destruct (nonEmptyKinds _) as [|[kind count] l] eqn:Hl; [done|].
      assert ((kind, count)
              ∈ nonEmptyKinds (census namespace (queriesOf cs monitored))) as Hel.
      { rewrite Hl. apply elem_of_cons. by left. }
      apply census_nonEmpty_elem in Hel as (r & _ & Hq & Hpos).
      apply countQuery_Ok in Hq as (items & Hlist & ->).
      rewrite Hall in Hlist. injection Hlist as <-. simpl in Hpos. lia.
    + destruct (failedKinds _) as [|[kind err] l] eqn:Hl; [done|].
      assert ((kind, err)
              ∈ failedKinds (census namespace (queriesOf cs monitored))) as Hel.
      { rewrite Hl. apply elem_of_cons. by left. }
      apply census_failed_elem in Hel as (r & _ & Hq).
      apply countQuery_Fail in Hq. by rewrite Hall in Hq.
Qed.

Lemma describe_None namespace (fl : list (string * error)) (ne : list (string * Z)) :
  describe namespace (renderFailed <$> fl) (renderNonEmpty <$> ne) = None ↔
  ne = [] ∧ fl = [].
Proof.
  rewrite describe_spec.
  destruct ne, fl; simpl; (split; [by intros | by intros [? ?]]).
Qed.

Lemma describe_mentions_kind namespace errList nonEmptyList x :
  x ∈ nonEmptyList →
  ∃ err, describe namespace errList nonEmptyList = Some err ∧
         occursIn x (Error err).
Proof.
  intros Hin. rewrite describe_spec.
  destruct nonEmptyList as [|y l]; [by apply elem_of_nil in Hin|].
  apply occursIn_fmtStrings in Hin.
  destruct errList; eexists; (split; [done|]); simpl;
    unfold nonEmptySentence; auto 10 with occurs.
Qed.

Lemma describe_mentions_error namespace errList nonEmptyList e :
  e ∈ errList →
  ∃ err, describe namespace errList nonEmptyList = Some err ∧
         occursIn (Error e) (Error err).
Proof.
  intros Hin. rewrite describe_spec.
  destruct errList as [|y l]; [by apply elem_of_nil in Hin|].
  assert (occursIn (Error e) (fmtErrors (y :: l))) as Hocc.
  { apply occursIn_fmtStrings, list_elem_of_fmap. by exists e. }
  destruct nonEmptyList; eexists; (split; [done|]); simpl;
    unfold errorSentence; auto 10 with occurs.
Qed.

(** The run of a well-formed DELETE that reaches the census. *)
Lemma handler_census req request namespace w :
  wellFormed req request →
  admitAll w = false →
  Resource request = namespaceResourceType →
  Operation_ request = Delete →
  Namespaces_Get (clientset w) (Name request) = Ok namespace →
  ¬ hasBypass namespace →
  ∃ admReview,
    webhookHandler req w =
    (match describe (Name request)
             (renderFailed <$> failedKinds
                (census (Name request) (queriesOf (clientset w) monitored)))
             (renderNonEmpty <$> nonEmptyKinds
                (census (Name request) (queriesOf (clientset w) monitored)))
     with
     | Some err => writeResponse admReview false (Error err)
     | None => writeResponse admReview true ""
     end,
     recordAll (GetNamespace (Name request) :: listCalls monitored (Name request)) w).
Proof.
  intros Hwf Hflag Hres Hop Hget Hnobypass.
  assert (bypassed namespace = false) as Hb.
  { destruct (bypassed namespace) eqn:Hb; [|done]. by apply bypassed_spec in Hb. }
  remember (census (Name request) (queriesOf (clientset w) monitored))
    as result eqn:Hresult.
  enter_handler Hwf. rewrite Hflag. do 2 pass_gate.
  unfold bind at 1, getNamespace at 1. rewrite Hget, Hb.
  unfold bind. rewrite validateNamespaceDeletion_census. cbv zeta. world_simpl.
  rewrite <- Hresult.
  exists admReview. rewrite <- recordAll_record.
  by destruct (describe _ _ _).
Qed.

(** *** The transport tests *)

(** X1. A request whose method is not POST is answered 405, whatever
    its path; a POST to a path other than "/" is answered 404; neither
    touches the world.  A POST to "/" is never answered by an HTTP
    error. *)
Theorem http_error_gates req w :
  (Method req ≠ "POST" →
   webhookHandler req w =
   (HttpError 405 ("Incoming request method " +:+ Method req +:+
                   " is not supported, only POST is supported"), w)) ∧
  (Method req = "POST" → Path req ≠ "/" →
   webhookHandler req w = (HttpError 404 (Path req +:+ " 404 Not Found"), w)) ∧
  (Method req = "POST" → Path req = "/" →
   ∀ status text, (webhookHandler req w).1 ≠ HttpError status text).
Proof.
  split_and!.
  - intros HM. unfold webhookHandler. by pass_gate.
  - intros HM HP. unfold webhookHandler. rewrite HM. simpl. by pass_gate.
  - intros HM HP status text.
    destruct (handler_Handles req w) as (reply & calls & Hpath & ->).
    by destruct Hpath.
Qed.

(** X2. The handler writes a verdict exactly for a POST to "/" whose
    body either does not decode or decodes into a review that carries a
    request. *)
Theorem verdict_written_iff req w :
  is_Some (verdict (webhookHandler req w).1) ↔
  Method req = "POST" ∧ Path req = "/" ∧
  ((∃ err, Body req = Fail err) ∨
   (∃ admReview request,
      Body req = Ok admReview ∧ Request admReview = Some request)).
Proof.
  destruct (handler_Handles req w) as (reply & calls & Hpath & ->). simpl.
  split.
  - intros Hsome.
    destruct Hpath as
      [ | | err | | admReview request (? & ? & ? & ?)
      | admReview request (? & ? & ? & ?) | admReview request (? & ? & ? & ?)
      | admReview request ? (? & ? & ? & ?) | admReview request ? (? & ? & ? & ?)
      | admReview request ? (? & ? & ? & ?) | admReview request ? ? (? & ? & ? & ?)
      | admReview request ? (? & ? & ? & ?) ];
      try (by destruct Hsome);
      (split_and!; [done | done |]); first [ left; by eexists | right; by eexists _, _ ].
  - intros (HM & HP & Hbody).
    destruct Hpath as
      [ | | | admReview' ? ? HB HR | | | | | | | | ]; try done.
    destruct Hbody as [[err Hf]|(admReview & request & Hb & Hr)]; congruence.
Qed.

(** X3. A POST to "/" whose body decodes into a review without a
    request makes the handler dereference nil: nothing is written and
    no call is issued, whether [admitAll] is set or not. *)
Theorem nil_request_dereferenced req admReview w :
  Method req = "POST" → Path req = "/" →
  Body req = Ok admReview → Request admReview = None →
  webhookHandler req w = (NilDereference, w).
Proof.
  intros HM HP HB HR. unfold webhookHandler. by rewrite HM, HP, HB, HR.
Qed.

Lemma nil_request_dereferenced_witness :
  webhookHandler emptyObjectPost (world true) = (NilDereference, world true).
Proof.
  apply (nil_request_dereferenced emptyObjectPost
           {| Request := None; Response := None |} (world true));
    reflexivity.
Defined.

(** X4. A POST to "/" whose body does not decode is denied, whether
    [admitAll] is set or not: the reason ends with the decoder's error
    text, the review written carries a zero request, and no call is
    issued. *)
Theorem decode_failure_denied req err w :
  Method req = "POST" → Path req = "/" → Body req = Fail err →
  let reason :=
    "Failed to decode the request body json into an AdmissionReview resource: "
    +:+ Error err in
  webhookHandler req w =
    (Written {| Request := Some newAdmissionRequest;
                Response := Some {| Allowed := false; Reason := reason |} |}, w) ∧
  occursIn (Error err) reason ∧
  reason ≠ "".
Proof.
  intros HM HP HB reason. split_and!.
  - unfold webhookHandler. by rewrite HM, HP, HB.
  - unfold reason. auto with occurs.
  - done.
Qed.

Lemma decode_failure_denied_witness :
  webhookHandler undecodablePost (world true) =
    (Written {| Request := Some newAdmissionRequest;
                Response := Some {| Allowed := false;
                                    Reason := "Failed to decode the request body json into an AdmissionReview resource: unexpected EOF" |} |},
     world true) ∧
  occursIn "unexpected EOF"
    "Failed to decode the request body json into an AdmissionReview resource: unexpected EOF" ∧
  "Failed to decode the request body json into an AdmissionReview resource: unexpected EOF" ≠ "".
Proof.
  apply (decode_failure_denied undecodablePost
           {| Error := "unexpected EOF"; NotFound := false |}
           (world true)); reflexivity.
Defined.

(** *** What an allow means *)

(** X5. With [admitAll] off, an allow verdict is only ever written for
    a DELETE on the namespace resource type, and then for one of three
    reasons: the namespace was not found, it carries the bypass
    annotation, or every one of the eight list calls returned no
    item. *)
Theorem allow_sound req w reason :
  admitAll w = false →
  verdict (webhookHandler req w).1 = Some (true, reason) →
  ∃ admReview request,
    decodes req admReview request ∧
    Resource request = namespaceResourceType ∧
    Operation_ request = Delete ∧
    ((∃ err, Namespaces_Get (clientset w) (Name request) = Fail err ∧
             NotFound err = true) ∨
     (∃ namespace,
        Namespaces_Get (clientset w) (Name request) = Ok namespace ∧
        (hasBypass namespace ∨
         ∀ r, List (clientset w) r (Name request) = Ok []))).
Proof.
  intros Hflag.
  destruct (handler_Handles req w) as (reply & calls & Hpath & ->). simpl.
  destruct Hpath as
    [ | | err | | admReview request Hdec Hon
    | admReview request | admReview request
    | admReview request err Hdec _ Hres Hop Hget Hnf
    | admReview request err
    | admReview request namespace Hdec _ Hres Hop Hget Hb
    | admReview request namespace err
    | admReview request namespace Hdec _ Hres Hop Hget Hb Hd ];
    simpl; try done.
  - congruence.
  - intros _. exists admReview, request. split_and!; [done..|].
    left. by exists err.
  - intros _. exists admReview, request. split_and!; [done..|].
    right. exists namespace. split; [done|]. left. by apply bypassed_spec.
  - intros _. exists admReview, request. split_and!; [done..|].
    right. exists namespace. split; [done|]. right.
    by eapply census_empty_iff, describe_None.
Qed.

Lemma allow_sound_witness :
  ∃ admReview request,
    decodes (deleteOf "ns2") admReview request ∧
    Resource request = namespaceResourceType ∧
    Operation_ request = Delete ∧
    ((∃ err, Namespaces_Get (clientset (world false)) (Name request) = Fail err ∧
             NotFound err = true) ∨
     (∃ namespace,
        Namespaces_Get (clientset (world false)) (Name request) = Ok namespace ∧
        (hasBypass namespace ∨
         ∀ r, List (clientset (world false)) r (Name request) = Ok []))).
Proof.
  apply (allow_sound (deleteOf "ns2") (world false) ""); reflexivity.
Defined.

(** Among the eight endpoints, one that does not answer with an empty
    list can be found whenever not all of them do. *)
Lemma some_list_not_empty cs namespace :
  ¬ (∀ r, List cs r namespace = Ok []) →
  ∃ r, List cs r namespace ≠ Ok [].
Proof.
  intros Hnot.
  destruct (List cs Pods namespace) as [[|??]|?] eqn:?;
    [|exists Pods; congruence..].
  destruct (List cs Services namespace) as [[|??]|?] eqn:?;
    [|exists Services; congruence..].
  destruct (List cs ReplicaSets namespace) as [[|??]|?] eqn:?;
    [|exists ReplicaSets; congruence..].
  destruct (List cs Deployments namespace) as [[|??]|?] eqn:?;
    [|exists Deployments; congruence..].
  destruct (List cs StatefulSets namespace) as [[|??]|?] eqn:?;
    [|exists StatefulSets; congruence..].
  destruct (List cs DaemonSets namespace) as [[|??]|?] eqn:?;
    [|exists DaemonSets; congruence..].
  destruct (List cs Ingresses namespace) as [[|??]|?] eqn:?;
    [|exists Ingresses; congruence..].
  destruct (List cs HorizontalPodAutoscalers namespace) as [[|??]|?] eqn:?;
    [|exists HorizontalPodAutoscalers; congruence..].
  destruct Hnot. by intros [].
Qed.

(** X6. For a well-formed DELETE on the namespace resource type, with
    [admitAll] off and a namespace that was found and carries no
    effective bypass annotation, the verdict is allow exactly when each
    of the eight list calls succeeds with no item. *)
Theorem allow_iff_all_empty req request namespace w :
  wellFormed req request →
  admitAll w = false →
  Resource request = namespaceResourceType →
  Operation_ request = Delete →
  Namespaces_Get (clientset w) (Name request) = Ok namespace →
  ¬ hasBypass namespace →
  (verdict (webhookHandler req w).1 = Some (true, "") ↔
   ∀ r, List (clientset w) r (Name request) = Ok []) ∧
  ((∃ reason, verdict (webhookHandler req w).1 = Some (false, reason)) ↔
   ∃ r, List (clientset w) r (Name request) ≠ Ok []).
Proof.
  intros Hwf Hflag Hres Hop Hget Hnobypass.
  destruct (handler_census req request namespace w) as [admReview ->]; [done..|].
  assert (describe (Name request)
            (renderFailed <$> failedKinds
               (census (Name request) (queriesOf (clientset w) monitored)))
            (renderNonEmpty <$> nonEmptyKinds
               (census (Name request) (queriesOf (clientset w) monitored)))
          = None ↔ ∀ r, List (clientset w) r (Name request) = Ok []) as Hnone.
  { by rewrite describe_None, census_empty_iff. }
  destruct (describe _ _ _) as [err|]; cbn [fst verdict writeResponse]; simpl.
  - assert (¬ ∀ r, List (clientset w) r (Name request) = Ok []) as Hnot.
    { intros Hall. by apply Hnone in Hall. }
    split.
    + split; [by intros [= ?] | done].
    + split; [|by eexists]. intros _. by apply some_list_not_empty.
  - assert (∀ r, List (clientset w) r (Name request) = Ok []) as Hall
      by by apply Hnone.
    split.
    + done.
    + split; [by intros (? & [=]) | intros [r Hr]; by destruct Hr].
Qed.

Lemma allow_iff_all_empty_witness :
  (verdict (webhookHandler (deleteOf "ns3") (world false)).1 = Some (true, "") ↔
   ∀ r, List (clientset (world false)) r "ns3" = Ok []) ∧
  ((∃ reason, verdict (webhookHandler (deleteOf "ns3") (world false)).1
              = Some (false, reason)) ↔
   ∃ r, List (clientset (world false)) r "ns3" ≠ Ok []).
Proof.
  apply (allow_iff_all_empty (deleteOf "ns3") (deleteNamespace "ns3")
           {| v1.Annotations := None |} (world false)).
  - apply wellFormed_post.
  - reflexivity.
  - reflexivity.
  - reflexivity.
  - reflexivity.
  - intros (annotations & Hsome & _). discriminate Hsome.
Defined.

(** *** Fail closed *)

(** X7. On the census path, a single failing list call is enough to
    deny, and the reason contains the text of that error. *)
Theorem list_error_denies req request namespace r err w :
  wellFormed req request →
  admitAll w = false →
  Resource request = namespaceResourceType →
  Operation_ request = Delete →
  Namespaces_Get (clientset w) (Name request) = Ok namespace →
  ¬ hasBypass namespace →
  List (clientset w) r (Name request) = Fail err →
  ∃ reason,
    verdict (webhookHandler req w).1 = Some (false, reason) ∧
    occursIn (Error err) reason.
Proof.
  intros Hwf Hflag Hres Hop Hget Hnobypass Hlist.
  destruct (handler_census req request namespace w) as [admReview ->]; [done..|].
  destruct (monitored_all r) as [kind Hkind].
  assert ((kind, err) ∈ failedKinds
            (census (Name request) (queriesOf (clientset w) monitored))) as Hel.
  { apply census_failed_elem. exists r. split; [done|]. by apply countQuery_Fail. }
  destruct (describe_mentions_error (Name request)
              (renderFailed <$> failedKinds
                 (census (Name request) (queriesOf (clientset w) monitored)))
              (renderNonEmpty <$> nonEmptyKinds
                 (census (Name request) (queriesOf (clientset w) monitored)))
              (renderFailed (kind, err))) as (e & -> & Hocc).
  { apply list_elem_of_fmap. by exists (kind, err). }
  exists (Error e). split; [done|].
  destruct Hocc as (before & after & ->). simpl.
  exists (before +:+ "error listing " +:+ kind +:+ ", "), after.
  by rewrite !append_assoc.
Qed.

Lemma list_error_denies_witness :
  ∃ reason,
    verdict (webhookHandler (deleteOf "ns5") (world false)).1 = Some (false, reason) ∧
    occursIn "connection refused" reason.
Proof.
  apply (list_error_denies (deleteOf "ns5") (deleteNamespace "ns5")
           {| v1.Annotations := None |} Ingresses
           {| Error := "connection refused"; NotFound := false |} (world false)).
  - apply wellFormed_post.
  - reflexivity.
  - reflexivity.
  - reflexivity.
  - reflexivity.
  - intros (annotations & Hsome & _). discriminate Hsome.
  - reflexivity.
Defined.

(** X8. On the census path, a list call that returns at least one item
    is enough to deny, and the reason contains the label of that kind
    followed by the number of items in parentheses. *)
Theorem items_deny req request namespace r item items w :
  wellFormed req request →
  admitAll w = false →
  Resource request = namespaceResourceType →
  Operation_ request = Delete →
  Namespaces_Get (clientset w) (Name request) = Ok namespace →
  ¬ hasBypass namespace →
  List (clientset w) r (Name request) = Ok (item :: items) →
  ∃ kind reason,
    (kind, r) ∈ monitored ∧
    verdict (webhookHandler req w).1 = Some (false, reason) ∧
    occursIn (kind +:+ "(" +:+ fmtInt (Z.of_nat (S (length items))) +:+ ")") reason.
Proof.
  intros Hwf Hflag Hres Hop Hget Hnobypass Hlist.
  destruct (handler_census req request namespace w) as [admReview ->]; [done..|].
  destruct (monitored_all r) as [kind Hkind].
  assert ((kind, Z.of_nat (S (length items))) ∈ nonEmptyKinds
            (census (Name request) (queriesOf (clientset w) monitored))) as Hel.
  { apply census_nonEmpty_elem. exists r. split_and!; [done| |lia].
    apply countQuery_Ok. by exists (item :: items). }
  destruct (describe_mentions_kind (Name request)
              (renderFailed <$> failedKinds
                 (census (Name request) (queriesOf (clientset w) monitored)))
              (renderNonEmpty <$> nonEmptyKinds
                 (census (Name request) (queriesOf (clientset w) monitored)))
              (renderNonEmpty (kind, Z.of_nat (S (length items)))))
    as (e & -> & Hocc).
  { apply list_elem_of_fmap. by eexists (kind, _). }
  by exists kind, (Error e).
Qed.

Lemma items_deny_witness :
  ∃ kind reason,
    (kind, Pods) ∈ monitored ∧
    verdict (webhookHandler (deleteOf "ns3") (world false)).1 = Some (false, reason) ∧
    occursIn (kind +:+ "(" +:+ fmtInt (Z.of_nat 2) +:+ ")") reason.
Proof.
  apply (items_deny (deleteOf "ns3") (deleteNamespace "ns3")
           {| v1.Annotations := None |} Pods "api-0" ["api-1"] (world false)).
  - apply wellFormed_post.
  - reflexivity.
  - reflexivity.
  - reflexivity.
  - reflexivity.
  - intros (annotations & Hsome & _). discriminate Hsome.
  - reflexivity.
Defined.

(** *** The calls of a run *)

(** X9. A run issues no API call, or only the lookup of the namespace
    named in the request, or that lookup followed by the eight list
    calls on the same namespace, in table order.  Calls are issued only
    with [admitAll] off for a DELETE on the namespace resource type, and
    the list calls only after the lookup returned a namespace without
    the bypass annotation. *)
Theorem calls_shape req w :
  newCalls req w = [] ∨
  ∃ admReview request,
    decodes req admReview request ∧
    admitAll w = false ∧
    Resource request = namespaceResourceType ∧
    Operation_ request = Delete ∧
    (newCalls req w = [GetNamespace (Name request)] ∨
     (newCalls req w =
        [GetNamespace (Name request);
         ListItems Pods (Name request); ListItems Services (Name request);
         ListItems ReplicaSets (Name request); ListItems Deployments (Name request);
         ListItems StatefulSets (Name request); ListItems DaemonSets (Name request);
         ListItems Ingresses (Name request);
         ListItems HorizontalPodAutoscalers (Name request)] ∧
      ∃ namespace,
        Namespaces_Get (clientset w) (Name request) = Ok namespace ∧
        ¬ hasBypass namespace)).
Proof.
  destruct (handler_Handles req w) as (reply & calls & Hpath & Hrun).
  rewrite (newCalls_recordAll _ _ _ _ Hrun).
  assert (∀ namespace, bypassed namespace = false → ¬ hasBypass namespace) as Hnb.
  { intros namespace Hb Hhas%bypassed_spec. congruence. }
  destruct Hpath; try (by left); right; eexists _, _;
    (split_and!; [done..|]); first [ by left | right; split; [done | eauto] ].
Qed.

(** *** Requests do not interfere *)

(** X10. Handling a request leaves nothing behind that a later request
    could see: the reply to, and the calls of, a second request are the
    same whether or not another request was handled before it, and the
    call log after both is the log before followed by the calls of each
    in turn. *)
Theorem requests_isolated req1 req2 w :
  (webhookHandler req2 (webhookHandler req1 w).2).1 = (webhookHandler req2 w).1 ∧
  newCalls req2 (webhookHandler req1 w).2 = newCalls req2 w ∧
  issued (webhookHandler req2 (webhookHandler req1 w).2).2 =
    issued w ++ newCalls req1 w ++ newCalls req2 w.
Proof.
  rewrite !newCalls_decision.
  rewrite (handler_run req1 w). world_simpl.
  rewrite (handler_run req2 (recordAll _ w)), (handler_run req2 w). world_simpl.
  by rewrite <- app_assoc.
Qed.

(** *** The review written *)

(** X11. Whenever the handler writes a review, the review carries a
    response and a request: the request of the decoded body, or a zero
    request when the body did not decode. *)
Theorem written_review_echoes req w admReview :
  (webhookHandler req w).1 = Written admReview →
  is_Some (Response admReview) ∧
  Request admReview =
    match Body req with
    | Ok decoded => Request decoded
    | Fail _ => Some newAdmissionRequest
    end ∧
  is_Some (Request admReview).
Proof.
  destruct (handler_Handles req w) as (reply & calls & Hpath & ->). simpl.
  destruct Hpath as
    [ | | err ? ? HB | | ? request (? & ? & HB & HR)
    | ? request (? & ? & HB & HR) | ? request (? & ? & HB & HR)
    | ? request ? (? & ? & HB & HR) | ? request ? (? & ? & HB & HR)
    | ? request ? (? & ? & HB & HR) | ? request ? ? (? & ? & HB & HR)
    | ? request ? (? & ? & HB & HR) ];
    try done; intros [= <-]; simpl; rewrite HB; try rewrite HR; done.
Qed.

Lemma written_review_echoes_witness :
  is_Some (Response {| Request := Some (deleteNamespace "ns1");
                       Response := Some {| Allowed := true; Reason := "" |} |}) ∧
  Request {| Request := Some (deleteNamespace "ns1");
             Response := Some {| Allowed := true; Reason := "" |} |} =
    match Body (deleteOf "ns1") with
    | Ok decoded => Request decoded
    | Fail _ => Some newAdmissionRequest
    end ∧
  is_Some (Request {| Request := Some (deleteNamespace "ns1");
                      Response := Some {| Allowed := true; Reason := "" |} |}).
Proof.
  apply (written_review_echoes (deleteOf "ns1") (world false)). reflexivity.
Defined.

(** *** The cluster configuration *)

(** X12. [getKubernetesConfig] hands the configuration builder an empty
    path only: with a non-empty kubeconfig value the result is the
    in-cluster configuration, so two builders that agree on the empty
    path give the same result for every value of the flag. *)
Theorem kubeconfig_path_unused {Config} (build1 build2 : string → string → Result Config)
    (inCluster : Result Config) (kubeConfig : string) :
  build1 "" "" = build2 "" "" →
  getKubernetesConfig Config build1 inCluster kubeConfig =
  getKubernetesConfig Config build2 inCluster kubeConfig ∧
  (kubeConfig ≠ "" →
   getKubernetesConfig Config build1 inCluster kubeConfig = inCluster).
Proof.
  intros Hagree. unfold getKubernetesConfig.
  case_bool_decide as Hempty; [subst kubeConfig; by rewrite Hagree | done].
Qed.

Lemma kubeconfig_path_unused_witness :
  getKubernetesConfig string
    (λ _ path, if bool_decide (path = "") then Fail (errors_New "no configuration") else Ok path)
    (Ok "in-cluster") "/etc/kubeconfig" =
  getKubernetesConfig string
    (λ _ _, Fail (errors_New "no configuration"))
    (Ok "in-cluster") "/etc/kubeconfig" ∧
  ("/etc/kubeconfig" ≠ "" →
   getKubernetesConfig string
     (λ _ path, if bool_decide (path = "") then Fail (errors_New "no configuration") else Ok path)
     (Ok "in-cluster") "/etc/kubeconfig" = Ok "in-cluster").
Proof.
  apply (kubeconfig_path_unused
           (λ _ path, if bool_decide (path = "") then Fail (errors_New "no configuration") else Ok path)
           (λ _ _, Fail (errors_New "no configuration"))
           (Ok "in-cluster") "/etc/kubeconfig").
  reflexivity.
Defined.

(** *** validateNamespaceDeletion and the counters *)

(** X13. [validateNamespaceDeletion] returns nil exactly when each of
    the eight list calls succeeds with no item.  An error it returns
    ends with the instruction to annotate this namespace with the
    bypass key.  In both cases it issues the eight list calls and
    nothing else. *)
Theorem validateNamespaceDeletion_error_iff namespace w :
  ((validateNamespaceDeletion namespace w).1 = None ↔
   ∀ r, List (clientset w) r namespace = Ok []) ∧
  (∀ err, (validateNamespaceDeletion namespace w).1 = Some err →
     ∃ sentences,
       sentences ≠ "" ∧
       Error err =
         sentences +:+
         " WARNING: If you know what you are doing, run `kubectl annotate namespace "
         +:+ namespace +:+
         " k8s-namespace-guard.admission.yahoo.com/allow-cascade-delete=true` to bypass this policy check.") ∧
  (validateNamespaceDeletion namespace w).2 =
    recordAll (listCalls monitored namespace) w.
Proof.
  rewrite validateNamespaceDeletion_census. cbv zeta. cbn [fst snd].
  split_and!.
  - by rewrite describe_None, census_empty_iff.
  - intros err. rewrite describe_spec.
    generalize (census namespace (queriesOf (clientset w) monitored)).
    intros result.
    destruct (nonEmptyKinds result) as [|rec l], (failedKinds result) as [|rec' l'];
      simpl; [done|..]; intros [= <-]; simpl.
    + exists (errorSentence namespace (renderFailed <$> rec' :: l')).
      split; [apply errorSentence_nonempty | done].
    + exists (nonEmptySentence namespace (renderNonEmpty <$> rec :: l)).
      split; [apply nonEmptySentence_nonempty | done].
    + exists (nonEmptySentence namespace (renderNonEmpty <$> rec :: l) +:+
              errorSentence namespace (renderFailed <$> rec' :: l')).
      split; [apply append_nonempty_l, nonEmptySentence_nonempty|].
      by rewrite append_assoc.
  - done.
Qed.

(** X14. Every counter of the table issues exactly one call, the list
    call of its own endpoint on the namespace it is given, and returns
    either the number of items with a nil error or zero with the error
    of the call: the count is never negative, and never positive beside
    an error. *)
Theorem counters_contract kind (counter : Counter) namespace w :
  (kind, counter) ∈ counters →
  ∃ r,
    (kind, r) ∈ monitored ∧
    counter namespace w =
      (match List (clientset w) r namespace with
       | Ok items => (Z.of_nat (length items), None)
       | Fail err => (0%Z, Some err)
       end,
       record (ListItems r namespace) w) ∧
    (0 ≤ (counter namespace w).1.1)%Z ∧
    (is_Some (counter namespace w).1.2 → (counter namespace w).1.1 = 0%Z).
Proof.
  rewrite counters_monitored. unfold toCounters.
  intros ([kind' r] & [= -> ->] & Hin)%list_elem_of_fmap. simpl.
  exists r. split; [done|].
  unfold countItems, bind, listItems, ret.
  destruct (List (clientset w) r namespace) as [items|err]; simpl.
  - split_and!; [done | lia | by intros [? ?]].
  - split_and!; [done | lia | done].
Qed.

Lemma counters_contract_witness :
  ∃ r,
    ("ingresses", r) ∈ monitored ∧
    ingressCounter "ns5" (world false) =
      (match List (clientset (world false)) r "ns5" with
       | Ok items => (Z.of_nat (length items), None)
       | Fail err => (0%Z, Some err)
       end,
       record (ListItems r "ns5") (world false)) ∧
    (0 ≤ (ingressCounter "ns5" (world false)).1.1)%Z ∧
    (is_Some (ingressCounter "ns5" (world false)).1.2 →
     (ingressCounter "ns5" (world false)).1.1 = 0%Z).
Proof.
  apply (counters_contract "ingresses" ingressCounter "ns5" (world false)).
  unfold counters.
  repeat first [ apply list_elem_of_here | apply list_elem_of_further ].
Defined.
